(** * rekallpy/setup.py: the packaging manifest of rekall

    The repository's source is one Python module, [setup.py]:

    - line 1 imports [setup] from [setuptools];
    - lines 3-16 call [setup] with twelve literal keyword arguments, under
      the guard [if __name__ == "__main__":].

    The module is embedded as a computation in a small state-and-error
    monad.  The state holds the module's global namespace, the part of the
    interpreter the manifest cannot see (an abstract [World]: [sys.modules],
    the file system, ...) and a log of the operations the module asks the
    interpreter to perform.  The import machinery and the object it binds
    to [setup] are not part of this repository; they are parameters of the
    development. *)

From Stdlib Require Import String List Bool.
Import ListNotations.
Local Open Scope string_scope.
Local Open Scope list_scope.

Set Warnings "-register-all".

(** ** Python values occurring in the manifest *)

(** The keyword arguments of the call are string literals, one boolean
    literal and list displays of string literals. *)
Inductive value : Type :=
| Str (s : string)
| Boolean (b : bool)
| PyList (items : list value).

(** Keyword arguments in the order in which the call lists them. *)
Definition kwargs : Type := list (string * value).

(** [kwarg k kw] is the value passed for keyword [k], if any. *)
Fixpoint kwarg (k : string) (kw : kwargs) : option value :=
  match kw with
  | [] => None
  | (k', v) :: rest => if String.eqb k k' then Some v else kwarg k rest
  end.

(** The keywords of a call, left to right. *)
Definition keywords (kw : kwargs) : list string := map fst kw.

(** A string or list value with at least one character or item. *)
Definition nonempty (v : value) : bool :=
  match v with
  | Str s => negb (String.eqb s "")
  | PyList items => match items with [] => false | _ :: _ => true end
  | Boolean _ => false
  end.

(** [x in v] for a list [v] of strings. *)
Definition contains (x : string) (v : value) : Prop :=
  match v with
  | PyList items => In (Str x) items
  | _ => False
  end.

(** ** The keyword arguments of the [setup] call (lines 5-16) *)

Definition setup_kwargs : kwargs :=
  [ ("name", Str "rekallpy");
    ("version_format", Str "{tag}");
    ("description", Str "Spatiotemporal query language");
    ("url", Str "http://github.com/scanner-research/rekall");
    ("author", Str "Dan Fu");
    ("author_email", Str "danfu@stanford.edu");
    ("license", Str "Apache 2.0");
    ("packages", PyList [Str "rekall"]);
    ("install_requires",
       PyList [Str "python-constraint"; Str "tqdm"; Str "cloudpickle"]);
    ("setup_requires",
       PyList [Str "setuptools-git-version"; Str "pytest-runner"]);
    ("tests_require", PyList [Str "pytest"]);
    ("zip_safe", Boolean false) ].

(** ** Operations the module asks of the interpreter *)

Inductive event : Type :=
| EvImport (module name : string)        (* from module import name *)
| EvCall (callee : string) (args : kwargs).  (* callee(k1=v1, ...) *)
(* [EvCall] records that the call expression was evaluated: the callee was
   looked up and applied to the arguments.  Applying an object that is not
   callable is such an evaluation too; it ends in a [TypeError]. *)

Section Interpreter.

(** The interpreter state outside the module, and the exceptions raised
    by code outside the module. *)
Variable World : Type.
Variable ext_exn : Type.

(** A function object defined outside the module: called with keyword
    arguments it changes the world and returns or raises.  The manifest
    discards the value of its only call, so none is modelled. *)
Definition callable : Type := kwargs -> World -> (ext_exn + unit) * World.

(** What a global name can be bound to. *)
Inductive obj : Type :=
| Val (v : value)
| Fn (f : callable).

Definition namespace : Type := list (string * obj).

Fixpoint lookup (n : string) (g : namespace) : option obj :=
  match g with
  | [] => None
  | (n', o) :: rest => if String.eqb n n' then Some o else lookup n rest
  end.

(** Exceptions: the interpreter's own, raised on behalf of the module's
    code, and those raised by code outside the module. *)
Inductive exn : Type :=
| NameError (n : string)
| TypeError (msg : string)
| Raised (e : ext_exn).

Record state : Type := mkState {
  world : World;
  globals : namespace;
  trace : list event
}.

(** *** The monad *)

Definition M (A : Type) : Type := state -> (exn + A) * state.

Definition ret {A : Type} (a : A) : M A := fun s => (inr a, s).

Definition bind {A B : Type} (m : M A) (k : A -> M B) : M B :=
  fun s =>
    match m s with
    | (inl e, s') => (inl e, s')
    | (inr a, s') => k a s'
    end.

Definition raise {A : Type} (e : exn) : M A := fun s => (inl e, s).

Definition log (ev : event) : M unit :=
  fun s => (inr tt, mkState (world s) (globals s) (trace s ++ [ev])).

Definition store_name (n : string) (o : obj) : M unit :=
  fun s => (inr tt, mkState (world s) ((n, o) :: globals s) (trace s)).

(** Run a piece of outside code on the world. *)
Definition extern {A : Type} (f : World -> (ext_exn + A) * World) : M A :=
  fun s =>
    match f (world s) with
    | (inl e, w) => (inl (Raised e), mkState w (globals s) (trace s))
    | (inr a, w) => (inr a, mkState w (globals s) (trace s))
    end.

Notation "x <- m ;; k" := (bind m (fun x => k))
  (at level 61, m at next level, right associativity).
Notation "m ;; k" := (bind m (fun _ => k))
  (at level 61, right associativity).

(** *** Statements and expressions used by the manifest *)

(** The import machinery: [importer m n w] runs [from m import n] on the
    world [w]; it yields the object found under the name [n], whatever
    it is, or raises. *)
Variable importer : string -> string -> World -> (ext_exn + obj) * World.

(** [from m import n]: the name [n] is bound, to the object found, only
    when the import succeeds. *)
Definition import_from (m n : string) : M unit :=
  log (EvImport m n) ;;
  o <- extern (importer m n) ;;
  store_name n o.

(** Reading a global name. *)
Definition load_name (n : string) : M obj :=
  fun s =>
    match lookup n (globals s) with
    | Some o => (inr o, s)
    | None => (inl (NameError n), s)
    end.

(** [o == lit] for a string literal [lit]. *)
Definition eq_str (o : obj) (lit : string) : bool :=
  match o with
  | Val (Str s) => String.eqb s lit
  | _ => false
  end.

(** A call of the global [n] with keyword arguments, as an expression
    statement: the callee is looked up and applied to the arguments; an
    object that is not a function cannot be applied. *)
Definition call_kw (n : string) (args : kwargs) : M unit :=
  o <- load_name n ;;
  log (EvCall n args) ;;
  match o with
  | Fn f => extern (f args)
  | Val _ => raise (TypeError "object is not callable")
  end.

(** ** The module [setup.py] *)

Definition setup_py : M unit :=
  import_from "setuptools" "setup" ;;
  nm <- load_name "__name__" ;;
  if eq_str nm "__main__" then
    call_kw "setup" setup_kwargs
  else
    ret tt.

(** The namespace in which the interpreter starts evaluating a module
    named [name]. *)
Definition module_globals (name : string) : namespace :=
  [("__name__", Val (Str name))].

Definition init_state (name : string) (w : World) : state :=
  mkState w (module_globals name) [].

(** One evaluation of the module, under the name [name], from the
    world [w]. *)
Definition run_module (name : string) (w : World) : (exn + unit) * state :=
  setup_py (init_state name w).

End Interpreter.

Arguments Val {World ext_exn} v.
Arguments Fn {World ext_exn} f.
Arguments NameError {ext_exn} n.
Arguments TypeError {ext_exn} msg.
Arguments Raised {ext_exn} e.
Arguments mkState {World ext_exn} world globals trace.
Arguments world {World ext_exn} s.
Arguments globals {World ext_exn} s.
Arguments trace {World ext_exn} s.
Arguments lookup {World ext_exn} n g.
Arguments module_globals {World ext_exn} name.
Arguments init_state {World ext_exn} name w.
Arguments setup_py {World ext_exn} importer s.
Arguments run_module {World ext_exn} importer name w.

(** ** Reading a trace *)

(** The keyword arguments of the calls to [setup] in a trace, oldest
    first. *)
Fixpoint setup_calls (t : list event) : list kwargs :=
  match t with
  | [] => []
  | EvCall callee args :: rest =>
      if String.eqb callee "setup" then args :: setup_calls rest
      else setup_calls rest
  | EvImport _ _ :: rest => setup_calls rest
  end.

Definition is_call (ev : event) : bool :=
  match ev with
  | EvCall _ _ => true
  | EvImport _ _ => false
  end.

(** The two operations of the manifest: line 1 and lines 4-16. *)
Definition import_ev : event := EvImport "setuptools" "setup".
Definition call_ev : event := EvCall "setup" setup_kwargs.

(** ** Concrete interpreters

    The theorems below hold for every world and every import machinery.
    To run the module, small interpreters are fixed: one where
    [setuptools] is installed, one where it is not, one where the
    imported [setup] raises, and one where the name [setup] of
    [setuptools] is not a function. *)

Module Site.

Record site : Type := mkSite {
  sys_modules : list string;     (* modules imported so far *)
  distributions : list value     (* names handed to setup, newest first *)
}.

Definition empty : site := mkSite [] [].

(** A stand-in for [setuptools.setup]: it records the distribution name
    and refuses a call without one. *)
Definition setup : callable site string :=
  fun kw w =>
    match kwarg "name" kw with
    | Some n => (inr tt, mkSite (sys_modules w) (n :: distributions w))
    | None => (inl "DistutilsSetupError", w)
    end.

(** [setuptools] is installed and provides [setup]. *)
Definition importer (m n : string) (w : site)
  : (string + obj site string) * site :=
  if String.eqb m "setuptools" && String.eqb n "setup"
  then (inr (Fn setup), mkSite (m :: sys_modules w) (distributions w))
  else (inl "ImportError", w).

(** No module can be imported. *)
Definition bare_importer (m n : string) (w : site)
  : (string + obj site string) * site :=
  (inl "ModuleNotFoundError", w).

(** [setuptools] is installed, and its [setup] raises. *)
Definition failing_importer (m n : string) (w : site)
  : (string + obj site string) * site :=
  (inr (Fn (fun _ w' => (inl "SystemExit", w'))), w).

(** A module named [setuptools] is found, and its [setup] is a string. *)
Definition shadowed_importer (m n : string) (w : site)
  : (string + obj site string) * site :=
  (inr (Val (Str "setup")), mkSite (m :: sys_modules w) (distributions w)).

End Site.

(** ** Reading an evaluation *)

(** The import machinery of an interpreter. *)
Definition machinery (World ext_exn : Type) : Type :=
  string -> string -> World -> (ext_exn + obj World ext_exn) * World.

(** The evaluation of the module under [name] from [w] calls [setup] with
    the keyword arguments [kw]. *)
Definition calls_setup_with {World ext_exn : Type}
    (importer : machinery World ext_exn)
    (name : string) (w : World) (kw : kwargs) : Prop :=
  In kw (setup_calls (trace (snd (run_module importer name w)))).




(** ** Properties of a call and of an evaluation *)

(** The value of [name] is the single entry of [packages]. *)
Definition name_is_package (kw : kwargs) : Prop :=
  exists p, kwarg "name" kw = Some (Str p)
            /\ kwarg "packages" kw = Some (PyList [Str p]).

(** Keyword [k] is supplied with a non-empty value. *)
Definition supplied (k : string) (kw : kwargs) : bool :=
  match kwarg k kw with
  | Some v => nonempty v
  | None => false
  end.

(** Keyword [k] is supplied with a list that has [x] among its items. *)
Definition lists (k x : string) (kw : kwargs) : Prop :=
  exists v, kwarg k kw = Some v /\ contains x v.

(** An evaluation that invokes no operation and changes no state: it ends
    normally in the state it started from, with an empty trace. *)
Definition no_effect {World ext_exn : Type}
    (importer : machinery World ext_exn)
    (name : string) (w : World) : Prop :=
  run_module importer name w = (inr tt, init_state name w).


Arguments eq_str {World ext_exn} o lit.

(** ** Outcomes of outside code *)

(** The outside code returned rather than raised. *)
Definition returned {E A W : Type} (r : (E + A) * W) : bool :=
  match fst r with
  | inr _ => true
  | inl _ => false
  end.

(** The outcome of a statement that runs outside code and has no handler
    around it: a raised exception propagates as it is. *)
Definition propagate {E : Type} (r : E + unit) : exn E + unit :=
  match r with
  | inl x => inl (Raised x)
  | inr u => inr u
  end.

(** ** What one evaluation does *)

Section Evaluation.

Context {World ext_exn : Type}.
Variable importer : machinery World ext_exn.

(** The evaluation, statement by statement: the import, the test of
    [__name__], and under it the call. *)
Lemma run_module_eq (name : string) (w : World) :
  run_module importer name w =
  match importer "setuptools" "setup" w with
  | (inl x, w1) =>
      (inl (Raised x), mkState w1 (module_globals name) [import_ev])
  | (inr o, w1) =>
      let g := ("setup", o) :: module_globals name in
      if String.eqb name "__main__" then
        match o with
        | Fn f =>
            match f setup_kwargs w1 with
            | (inl x, w2) =>
                (inl (Raised x), mkState w2 g [import_ev; call_ev])
            | (inr u, w2) => (inr u, mkState w2 g [import_ev; call_ev])
            end
        | Val _ =>
            (inl (TypeError "object is not callable"),
             mkState w1 g [import_ev; call_ev])
        end
      else (inr tt, mkState w1 g [import_ev])
  end.
Proof.
  unfold run_module, setup_py, import_from, call_kw, load_name, bind,
    log, extern, store_name, ret, raise, init_state.
  cbn.
  destruct (importer "setuptools" "setup" w) as [[x | o] w1]; cbn.
  - reflexivity.
  - destruct (String.eqb name "__main__"); cbn.
    + destruct o as [v | f]; cbn.
      * reflexivity.
      * destruct (f setup_kwargs w1) as [[x | u] w2]; reflexivity.
    + reflexivity.
Qed.

(** The trace of an evaluation is the import alone, or the import
    followed by the one call of [setup], the latter only for the main
    program. *)
Lemma trace_run_module (name : string) (w : World) :
  let t := trace (snd (run_module importer name w)) in
  t = [import_ev] \/ (t = [import_ev; call_ev] /\ name = "__main__").
Proof.
  cbv zeta. rewrite run_module_eq.
  destruct (importer "setuptools" "setup" w) as [[x | o] w1]; cbn.
  - now left.
  - destruct (String.eqb_spec name "__main__") as [Hn | Hn]; cbn.
    + destruct o as [v | f]; cbn.
      * right; now split.
      * destruct (f setup_kwargs w1) as [[x | u] w2]; cbn; right; now split.
    + now left.
Qed.

(** Every call of [setup] in an evaluation passes the literal keyword
    arguments of lines 5-16, and the evaluation is that of the main
    program. *)
Lemma setup_call_inv (name : string) (w : World) (kw : kwargs) :
  calls_setup_with importer name w kw ->
  kw = setup_kwargs /\ name = "__main__".
Proof.
  unfold calls_setup_with.
  destruct (trace_run_module name w) as [Ht | [Ht Hn]]; rewrite Ht; cbn.
  - intros [].
  - intros [Hkw | []]. now split.
Qed.

(** When the import succeeds, the main program calls [setup] once. *)
Lemma setup_called_once (w w1 : World) (o : obj World ext_exn) :
  importer "setuptools" "setup" w = (inr o, w1) ->
  setup_calls (trace (snd (run_module importer "__main__" w)))
  = [setup_kwargs].
Proof.
  intros Himp. rewrite run_module_eq, Himp. cbn.
  destruct o as [v | f]; cbn; [reflexivity |].
  destruct (f setup_kwargs w1) as [[x | u] w2]; reflexivity.
Qed.

(** When neither the import nor [setup] raises, the evaluation ends
    normally. *)
Lemma run_module_ok (name : string) (w w1 w2 : World)
      (f : callable World ext_exn) :
  importer "setuptools" "setup" w = (inr (Fn f), w1) ->
  f setup_kwargs w1 = (inr tt, w2) ->
  fst (run_module importer name w) = inr tt.
Proof.
  intros Himp Hcall. rewrite run_module_eq, Himp. cbn.
  destruct (String.eqb name "__main__"); cbn.
  - now rewrite Hcall.
  - reflexivity.
Qed.

End Evaluation.

(** The call lists twelve keywords, none of them twice. *)
Lemma setup_kwargs_keywords :
  keywords setup_kwargs =
  ["name"; "version_format"; "description"; "url"; "author"; "author_email";
   "license"; "packages"; "install_requires"; "setup_requires";
   "tests_require"; "zip_safe"].
Proof. reflexivity. Qed.

Lemma setup_kwargs_NoDup : NoDup (keywords setup_kwargs).
Proof.
  rewrite setup_kwargs_keywords.
  repeat (constructor; [cbn; intuition discriminate |]).
  constructor.
Qed.

(** One evaluation in the interpreter with [setuptools] installed. *)
Example run_main_site :
  run_module Site.importer "__main__" Site.empty =
  (inr tt,
   mkState (Site.mkSite ["setuptools"] [Str "rekallpy"])
           [("setup", Fn Site.setup); ("__name__", Val (Str "__main__"))]
           [EvImport "setuptools" "setup"; EvCall "setup" setup_kwargs]).
Proof. reflexivity. Qed.

Example run_imported_site :
  run_module Site.importer "setup" Site.empty =
  (inr tt,
   mkState (Site.mkSite ["setuptools"] [])
           [("setup", Fn Site.setup); ("__name__", Val (Str "setup"))]
           [EvImport "setuptools" "setup"]).
Proof. reflexivity. Qed.

Example run_main_shadowed :
  run_module Site.shadowed_importer "__main__" Site.empty =
  (inl (TypeError "object is not callable"),
   mkState (Site.mkSite ["setuptools"] [])
           [("setup", Val (Str "setup")); ("__name__", Val (Str "__main__"))]
           [EvImport "setuptools" "setup"; EvCall "setup" setup_kwargs]).
Proof. reflexivity. Qed.

Example run_main_bare :
  run_module Site.bare_importer "__main__" Site.empty =
  (inl (Raised "ModuleNotFoundError"),
   mkState Site.empty [("__name__", Val (Str "__main__"))]
           [EvImport "setuptools" "setup"]).
Proof. reflexivity. Qed.

(** ** The metadata the manifest declares *)

(** C1, as amended.  The manifest declares the distribution name
    ['rekallpy'] and the single importable package ['rekall']: every call of
    [setup] passes [name='rekallpy'] and [packages=['rekall']], and the value
    of [name] is not the entry of [packages]. *)
Theorem distribution_and_package_names
    {World ext_exn : Type} (importer : machinery World ext_exn)
    (name : string) (w : World) (kw : kwargs) :
  calls_setup_with importer name w kw ->
  kwarg "name" kw = Some (Str "rekallpy")
  /\ kwarg "packages" kw = Some (PyList [Str "rekall"])
  /\ ~ name_is_package kw.
Proof.
  intros Hcall. apply setup_call_inv in Hcall as [-> _].
  repeat split; try reflexivity.
  intros [p [Hname Hpkg]]. cbn in Hname, Hpkg.
  injection Hname as <-. discriminate Hpkg.
Qed.

Lemma distribution_and_package_names_witness :
  calls_setup_with Site.importer "__main__" Site.empty setup_kwargs
  /\ kwarg "name" setup_kwargs = Some (Str "rekallpy")
  /\ kwarg "packages" setup_kwargs = Some (PyList [Str "rekall"])
  /\ ~ name_is_package setup_kwargs.
Proof.
  split.
  - left; reflexivity.
  - apply (distribution_and_package_names Site.importer "__main__" Site.empty).
    left; reflexivity.
Defined.

(** C1, as worded, fails: the main program, run where [setuptools] is
    installed, calls [setup] with a [name] that is not the entry of
    [packages]. *)
Lemma name_is_not_the_package :
  calls_setup_with Site.importer "__main__" Site.empty setup_kwargs
  /\ ~ name_is_package setup_kwargs.
Proof.
  split; [left; reflexivity |].
  intros [p [Hname Hpkg]]. cbn in Hname, Hpkg.
  injection Hname as <-. discriminate Hpkg.
Qed.

(** C2.  The [packages] argument of every call of [setup] is a list with
    exactly one element. *)
Theorem packages_is_singleton
    {World ext_exn : Type} (importer : machinery World ext_exn)
    (name : string) (w : World) (kw : kwargs) :
  calls_setup_with importer name w kw ->
  exists items, kwarg "packages" kw = Some (PyList items) /\ length items = 1.
Proof.
  intros Hcall. apply setup_call_inv in Hcall as [-> _].
  exists [Str "rekall"]. split; reflexivity.
Qed.

Lemma packages_is_singleton_witness :
  calls_setup_with Site.importer "__main__" Site.empty setup_kwargs
  /\ exists items,
       kwarg "packages" setup_kwargs = Some (PyList items) /\ length items = 1.
Proof.
  split.
  - left; reflexivity.
  - apply (packages_is_singleton Site.importer "__main__" Site.empty).
    left; reflexivity.
Defined.

(** C3.  The [install_requires] argument of every call of [setup] is the
    list ['python-constraint', 'tqdm', 'cloudpickle'], three runtime
    dependencies in that order. *)
Theorem install_requires_exact
    {World ext_exn : Type} (importer : machinery World ext_exn)
    (name : string) (w : World) (kw : kwargs) :
  calls_setup_with importer name w kw ->
  kwarg "install_requires" kw
  = Some (PyList [Str "python-constraint"; Str "tqdm"; Str "cloudpickle"]).
Proof.
  intros Hcall. apply setup_call_inv in Hcall as [-> _]. reflexivity.
Qed.

Lemma install_requires_exact_witness :
  calls_setup_with Site.importer "__main__" Site.empty setup_kwargs
  /\ kwarg "install_requires" setup_kwargs
     = Some (PyList [Str "python-constraint"; Str "tqdm"; Str "cloudpickle"]).
Proof.
  split.
  - left; reflexivity.
  - apply (install_requires_exact Site.importer "__main__" Site.empty).
    left; reflexivity.
Defined.

(** C4.  Every call of [setup] passes [version_format='{tag}'], lists
    ['setuptools-git-version'] in [setup_requires], and passes no [version]
    argument. *)
Theorem version_from_tag
    {World ext_exn : Type} (importer : machinery World ext_exn)
    (name : string) (w : World) (kw : kwargs) :
  calls_setup_with importer name w kw ->
  kwarg "version_format" kw = Some (Str "{tag}")
  /\ lists "setup_requires" "setuptools-git-version" kw
  /\ kwarg "version" kw = None.
Proof.
  intros Hcall. apply setup_call_inv in Hcall as [-> _].
  split; [reflexivity | split; [| reflexivity]].
  eexists. split; [reflexivity |]. cbn. now left.
Qed.

Lemma version_from_tag_witness :
  calls_setup_with Site.importer "__main__" Site.empty setup_kwargs
  /\ kwarg "version_format" setup_kwargs = Some (Str "{tag}")
  /\ lists "setup_requires" "setuptools-git-version" setup_kwargs
  /\ kwarg "version" setup_kwargs = None.
Proof.
  split.
  - left; reflexivity.
  - apply (version_from_tag Site.importer "__main__" Site.empty).
    left; reflexivity.
Defined.

(** C5.  Every call of [setup] lists ['pytest'] in [tests_require] and the
    hook ['pytest-runner'] in [setup_requires]. *)
Theorem test_runner_declared
    {World ext_exn : Type} (importer : machinery World ext_exn)
    (name : string) (w : World) (kw : kwargs) :
  calls_setup_with importer name w kw ->
  lists "tests_require" "pytest" kw
  /\ lists "setup_requires" "pytest-runner" kw.
Proof.
  intros Hcall. apply setup_call_inv in Hcall as [-> _].
  split; eexists; (split; [reflexivity |]); cbn; auto.
Qed.

Lemma test_runner_declared_witness :
  calls_setup_with Site.importer "__main__" Site.empty setup_kwargs
  /\ lists "tests_require" "pytest" setup_kwargs
  /\ lists "setup_requires" "pytest-runner" setup_kwargs.
Proof.
  split.
  - left; reflexivity.
  - apply (test_runner_declared Site.importer "__main__" Site.empty).
    left; reflexivity.
Defined.

(** C6.  Every call of [setup] supplies non-empty [name], [version_format],
    [install_requires] and [license] arguments, and its [description] is
    ['Spatiotemporal query language']. *)
Theorem metadata_fields_declared
    {World ext_exn : Type} (importer : machinery World ext_exn)
    (name : string) (w : World) (kw : kwargs) :
  calls_setup_with importer name w kw ->
  supplied "name" kw = true
  /\ supplied "version_format" kw = true
  /\ supplied "install_requires" kw = true
  /\ supplied "license" kw = true
  /\ kwarg "description" kw = Some (Str "Spatiotemporal query language").
Proof.
  intros Hcall. apply setup_call_inv in Hcall as [-> _].
  repeat split.
Qed.

Lemma metadata_fields_declared_witness :
  calls_setup_with Site.importer "__main__" Site.empty setup_kwargs
  /\ supplied "name" setup_kwargs = true
  /\ supplied "version_format" setup_kwargs = true
  /\ supplied "install_requires" setup_kwargs = true
  /\ supplied "license" setup_kwargs = true
  /\ kwarg "description" setup_kwargs
     = Some (Str "Spatiotemporal query language").
Proof.
  split.
  - left; reflexivity.
  - apply (metadata_fields_declared Site.importer "__main__" Site.empty).
    left; reflexivity.
Defined.

(** C9.  Every call of [setup] passes [zip_safe=False]. *)
Theorem not_zip_safe
    {World ext_exn : Type} (importer : machinery World ext_exn)
    (name : string) (w : World) (kw : kwargs) :
  calls_setup_with importer name w kw ->
  kwarg "zip_safe" kw = Some (Boolean false).
Proof.
  intros Hcall. apply setup_call_inv in Hcall as [-> _]. reflexivity.
Qed.

Lemma not_zip_safe_witness :
  calls_setup_with Site.importer "__main__" Site.empty setup_kwargs
  /\ kwarg "zip_safe" setup_kwargs = Some (Boolean false).
Proof.
  split.
  - left; reflexivity.
  - apply (not_zip_safe Site.importer "__main__" Site.empty).
    left; reflexivity.
Defined.

(** ** Effects and failures of an evaluation *)

(** C7, as amended.  When the module is not the main program, [setup] is
    never called: the only operation invoked is the import of line 1, which
    leaves the world as the import machinery leaves it and binds no global
    name other than [setup].  Whenever [setup] is called, the module is the
    main program. *)
Theorem only_main_calls_setup
    {World ext_exn : Type} (importer : machinery World ext_exn)
    (name : string) (w : World) :
  (name <> "__main__" ->
     trace (snd (run_module importer name w)) = [import_ev]
     /\ filter is_call (trace (snd (run_module importer name w))) = []
     /\ setup_calls (trace (snd (run_module importer name w))) = []
     /\ world (snd (run_module importer name w))
        = snd (importer "setuptools" "setup" w)
     /\ forall n, n <> "setup" ->
          lookup n (globals (snd (run_module importer name w)))
          = lookup n (module_globals name))
  /\ (forall kw, calls_setup_with importer name w kw -> name = "__main__").
Proof.
  split.
  - intros Hname. rewrite run_module_eq.
    destruct (importer "setuptools" "setup" w) as [[x | f] w1]; cbn.
    + repeat split.
    + apply String.eqb_neq in Hname. rewrite Hname. cbn.
      repeat split. intros n Hn.
      apply String.eqb_neq in Hn. now rewrite Hn.
  - intros kw Hcall. now apply setup_call_inv in Hcall.
Qed.

Lemma only_main_calls_setup_witness :
  "setup" <> "__main__"
  /\ trace (snd (run_module Site.importer "setup" Site.empty)) = [import_ev]
  /\ setup_calls (trace (snd (run_module Site.importer "setup" Site.empty)))
     = [].
Proof.
  split; [discriminate |].
  destruct (only_main_calls_setup Site.importer "setup" Site.empty)
    as [Himported _].
  destruct Himported as (Ht & _ & Hc & _); [discriminate |].
  split; [exact Ht | exact Hc].
Defined.

(** C7, as worded, fails: imported under the name ['setup'] where
    [setuptools] is installed, the module is not the main program, yet its
    evaluation invokes the import, which changes the world and the module's
    namespace. *)
Lemma import_is_an_effect :
  "setup" <> "__main__"
  /\ ~ no_effect Site.importer "setup" Site.empty
  /\ trace (snd (run_module Site.importer "setup" Site.empty)) = [import_ev]
  /\ world (snd (run_module Site.importer "setup" Site.empty)) <> Site.empty
  /\ lookup "setup" (globals (snd (run_module Site.importer "setup" Site.empty)))
     = Some (Fn Site.setup).
Proof.
  split; [discriminate |].
  split; [| split; [reflexivity | split; [discriminate | reflexivity]]].
  unfold no_effect. rewrite run_imported_site. discriminate.
Qed.




(** C10.  The arguments of [setup] do not depend on the evaluation: any two
    calls of [setup], made by any two evaluations of the main program in any
    two interpreters, pass identical keyword arguments, the literals of
    lines 5-16. *)
Theorem setup_arguments_deterministic
    {World1 exn1 World2 exn2 : Type}
    (importer1 : machinery World1 exn1) (importer2 : machinery World2 exn2)
    (w1 : World1) (w2 : World2) (kw1 kw2 : kwargs) :
  calls_setup_with importer1 "__main__" w1 kw1 ->
  calls_setup_with importer2 "__main__" w2 kw2 ->
  kw1 = kw2 /\ kw2 = setup_kwargs.
Proof.
  intros H1 H2.
  apply setup_call_inv in H1 as [-> _].
  apply setup_call_inv in H2 as [-> _].
  now split.
Qed.

Lemma setup_arguments_deterministic_witness :
  calls_setup_with Site.importer "__main__" Site.empty setup_kwargs
  /\ calls_setup_with Site.failing_importer "__main__"
       (Site.mkSite ["os"] [Str "rekallpy"]) setup_kwargs
  /\ setup_kwargs = setup_kwargs.
Proof.
  split; [left; reflexivity |].
  split; [left; reflexivity |].
  apply (setup_arguments_deterministic Site.importer Site.failing_importer
           Site.empty (Site.mkSite ["os"] [Str "rekallpy"])
           setup_kwargs setup_kwargs);
    left; reflexivity.
Defined.

(** ** Further properties of the evaluation *)

(** The module body run from any state whose namespace binds [__name__]:
    the statements of [run_module_eq], with the trace extended and the
    namespace grown by the binding of [setup]. *)
Lemma setup_py_eq
    {World ext_exn : Type} (importer : machinery World ext_exn)
    (s : state World ext_exn) (o : obj World ext_exn) :
  lookup "__name__" (globals s) = Some o ->
  setup_py importer s =
  match importer "setuptools" "setup" (world s) with
  | (inl x, w1) =>
      (inl (Raised x), mkState w1 (globals s) (trace s ++ [import_ev]))
  | (inr so, w1) =>
      let g := ("setup", so) :: globals s in
      if eq_str o "__main__" then
        match so with
        | Fn f =>
            match f setup_kwargs w1 with
            | (inl x, w2) =>
                (inl (Raised x),
                 mkState w2 g (trace s ++ [import_ev; call_ev]))
            | (inr u, w2) =>
                (inr u, mkState w2 g (trace s ++ [import_ev; call_ev]))
            end
        | Val _ =>
            (inl (TypeError "object is not callable"),
             mkState w1 g (trace s ++ [import_ev; call_ev]))
        end
      else (inr tt, mkState w1 g (trace s ++ [import_ev]))
  end.
Proof.
  intros Hname.
  unfold setup_py, import_from, call_kw, load_name, bind, log, extern,
    store_name, ret, raise.
  cbn.
  destruct (importer "setuptools" "setup" (world s)) as [[x | so] w1]; cbn.
  - reflexivity.
  - rewrite Hname.
    destruct (eq_str o "__main__"); cbn.
    + rewrite <- app_assoc. cbn.
      destruct so as [v | f]; cbn; [reflexivity |].
      destruct (f setup_kwargs w1) as [[x | u] w2]; reflexivity.
    + reflexivity.
Qed.

(** A keyword that a call does not list has no value. *)
Lemma kwarg_None_iff (k : string) (kw : kwargs) :
  kwarg k kw = None <-> ~ In k (keywords kw).
Proof.
  induction kw as [| [k' v] rest IH]; cbn.
  - split; [intros _ [] | reflexivity].
  - destruct (String.eqb_spec k k') as [-> | Hk].
    + split; [discriminate | intros H; exfalso; apply H; now left].
    + rewrite IH. split.
      * intros H [Heq | Hin]; [now apply Hk | now apply H].
      * intros H Hin. apply H. now right.
Qed.

(** X1.  An evaluation calls [setup] exactly once when it is the main
    program and the import of line 1 returned, and not at all otherwise. *)
Theorem setup_called_exactly_when
    {World ext_exn : Type} (importer : machinery World ext_exn)
    (name : string) (w : World) :
  setup_calls (trace (snd (run_module importer name w))) =
  if String.eqb name "__main__" && returned (importer "setuptools" "setup" w)
  then [setup_kwargs] else [].
Proof.
  rewrite run_module_eq. unfold returned.
  destruct (importer "setuptools" "setup" w) as [[x | o] w1]; cbn.
  - now rewrite andb_false_r.
  - rewrite andb_true_r.
    destruct (String.eqb name "__main__"); cbn; [| reflexivity].
    destruct o as [v | f]; cbn; [reflexivity |].
    destruct (f setup_kwargs w1) as [[x | u] w2]; reflexivity.
Qed.

(** X2.  When the import of line 1 raises, the evaluation ends there with
    that exception, whatever the module's name: [setup] is not called, the
    name [setup] stays unbound, and the world is the one the import left. *)
Theorem import_failure_stops_evaluation
    {World ext_exn : Type} (importer : machinery World ext_exn)
    (name : string) (w w1 : World) (x : ext_exn) :
  importer "setuptools" "setup" w = (inl x, w1) ->
  run_module importer name w
  = (inl (Raised x), mkState w1 (module_globals name) [import_ev])
  /\ lookup "setup" (globals (snd (run_module importer name w))) = None.
Proof.
  intros Himp. rewrite run_module_eq, Himp. split; reflexivity.
Qed.

Lemma import_failure_stops_evaluation_witness :
  Site.bare_importer "setuptools" "setup" Site.empty
  = (inl "ModuleNotFoundError", Site.empty)
  /\ run_module Site.bare_importer "__main__" Site.empty
     = (inl (Raised "ModuleNotFoundError"),
        mkState Site.empty (module_globals "__main__") [import_ev]).
Proof.
  split; [reflexivity |].
  apply (import_failure_stops_evaluation Site.bare_importer "__main__"
           Site.empty Site.empty "ModuleNotFoundError").
  reflexivity.
Defined.

(** X3.  In the main program, when the import returned the function [f]
    and left the world [w1], the evaluation calls [f] on [w1] with the
    keyword arguments of lines 5-16, after the import and once; its outcome
    is that of the call, an exception of [f] propagating unchanged, and
    the final world is the one [f] left, also when [f] raised. *)
Theorem main_program_runs_imported_setup
    {World ext_exn : Type} (importer : machinery World ext_exn)
    (w w1 : World) (f : callable World ext_exn) :
  importer "setuptools" "setup" w = (inr (Fn f), w1) ->
  fst (run_module importer "__main__" w) = propagate (fst (f setup_kwargs w1))
  /\ world (snd (run_module importer "__main__" w)) = snd (f setup_kwargs w1)
  /\ trace (snd (run_module importer "__main__" w)) = [import_ev; call_ev].
Proof.
  intros Himp. rewrite run_module_eq, Himp. cbn.
  destruct (f setup_kwargs w1) as [[x | u] w2]; repeat split.
Qed.

Lemma main_program_runs_imported_setup_witness :
  Site.importer "setuptools" "setup" Site.empty
  = (inr (Fn Site.setup), Site.mkSite ["setuptools"] [])
  /\ fst (run_module Site.importer "__main__" Site.empty) = inr tt
  /\ world (snd (run_module Site.importer "__main__" Site.empty))
     = Site.mkSite ["setuptools"] [Str "rekallpy"]
  /\ trace (snd (run_module Site.importer "__main__" Site.empty))
     = [import_ev; call_ev].
Proof.
  split; [reflexivity |].
  apply (main_program_runs_imported_setup Site.importer Site.empty
           (Site.mkSite ["setuptools"] []) Site.setup).
  reflexivity.
Defined.

(** X4.  An evaluation ends normally exactly when the import returned and,
    in the main program, the call of [setup] returned too: no exception of
    the import or of [setup] is caught, and a [setup] that cannot be called
    does not pass for a call that returned. *)
Theorem evaluation_succeeds_iff
    {World ext_exn : Type} (importer : machinery World ext_exn)
    (name : string) (w : World) :
  fst (run_module importer name w) = inr tt <->
  exists o w1,
    importer "setuptools" "setup" w = (inr o, w1)
    /\ (name <> "__main__"
        \/ exists f w2, o = Fn f /\ f setup_kwargs w1 = (inr tt, w2)).
Proof.
  rewrite run_module_eq.
  destruct (importer "setuptools" "setup" w) as [[x | o] w1]; cbn.
  - split; [discriminate | intros (o & w1' & Himp & _); discriminate].
  - destruct (String.eqb_spec name "__main__") as [Hn | Hn]; cbn.
    + destruct o as [v | f]; cbn.
      * split; [discriminate |].
        intros (o' & w1' & [= <- <-] & [Hne | (f & w2 & Hfn & _)]).
        -- now elim Hne.
        -- discriminate Hfn.
      * destruct (f setup_kwargs w1) as [[x | []] w2] eqn:Hcall; cbn.
        -- split; [discriminate |].
           intros (o' & w1' & [= <- <-] & [Hne | (f' & w2' & [= <-] & Hret)]).
           ++ now elim Hne.
           ++ rewrite Hcall in Hret. discriminate.
        -- split; [| reflexivity].
           intros _. exists (Fn f), w1. split; [reflexivity |].
           right. now exists f, w2.
    + split; [| reflexivity].
      intros _. exists o, w1. split; [reflexivity | now left].
Qed.

(** X5.  The module defines one global name at most: after an evaluation
    [setup] is bound to the imported object when the import returned and
    is unbound when it raised, and every other name is bound as it was when
    the evaluation began; [__name__] is never rebound. *)
Theorem module_defines_only_setup
    {World ext_exn : Type} (importer : machinery World ext_exn)
    (name : string) (w : World) (n : string) :
  lookup n (globals (snd (run_module importer name w))) =
  if String.eqb n "setup" then
    match fst (importer "setuptools" "setup" w) with
    | inr o => Some o
    | inl _ => None
    end
  else lookup n (module_globals name).
Proof.
  rewrite run_module_eq.
  destruct (importer "setuptools" "setup" w) as [[x | o] w1]; cbn.
  - destruct (String.eqb_spec n "setup") as [-> | Hn]; reflexivity.
  - destruct (String.eqb name "__main__"); cbn.
    + destruct o as [v | f]; cbn.
      * destruct (String.eqb n "setup"); reflexivity.
      * destruct (f setup_kwargs w1) as [[x | u] w2]; cbn;
          destruct (String.eqb n "setup"); reflexivity.
    + destruct (String.eqb n "setup"); reflexivity.
Qed.

(** X6.  Every call of [setup] lists exactly the twelve keywords of lines
    5-16, in that order and each once; a keyword outside them has no value,
    so the manifest declares no entry points, scripts, extension modules or
    Python version bound. *)
Theorem setup_keywords_exact
    {World ext_exn : Type} (importer : machinery World ext_exn)
    (name : string) (w : World) (kw : kwargs) :
  calls_setup_with importer name w kw ->
  keywords kw =
    ["name"; "version_format"; "description"; "url"; "author";
     "author_email"; "license"; "packages"; "install_requires";
     "setup_requires"; "tests_require"; "zip_safe"]
  /\ NoDup (keywords kw)
  /\ (forall k, kwarg k kw = None <-> ~ In k (keywords kw))
  /\ kwarg "entry_points" kw = None
  /\ kwarg "scripts" kw = None
  /\ kwarg "ext_modules" kw = None
  /\ kwarg "python_requires" kw = None.
Proof.
  intros Hcall. apply setup_call_inv in Hcall as [-> _].
  split; [reflexivity |].
  split; [apply setup_kwargs_NoDup |].
  split; [intros k; apply kwarg_None_iff |].
  repeat split.
Qed.

Lemma setup_keywords_exact_witness :
  calls_setup_with Site.importer "__main__" Site.empty setup_kwargs
  /\ NoDup (keywords setup_kwargs)
  /\ length (keywords setup_kwargs) = 12.
Proof.
  split; [left; reflexivity |].
  destruct (setup_keywords_exact Site.importer "__main__" Site.empty
              setup_kwargs) as (Hkeys & Hnodup & _).
  - left; reflexivity.
  - split; [exact Hnodup | now rewrite Hkeys].
Defined.

(** X7.  Every call of [setup] passes the project URL
    ['http://github.com/scanner-research/rekall'], the author ['Dan Fu'] and
    the author's address ['danfu@stanford.edu'], and the licence
    ['Apache 2.0']. *)
Theorem contact_metadata
    {World ext_exn : Type} (importer : machinery World ext_exn)
    (name : string) (w : World) (kw : kwargs) :
  calls_setup_with importer name w kw ->
  kwarg "url" kw = Some (Str "http://github.com/scanner-research/rekall")
  /\ kwarg "author" kw = Some (Str "Dan Fu")
  /\ kwarg "author_email" kw = Some (Str "danfu@stanford.edu")
  /\ kwarg "license" kw = Some (Str "Apache 2.0").
Proof.
  intros Hcall. apply setup_call_inv in Hcall as [-> _]. repeat split.
Qed.

Lemma contact_metadata_witness :
  calls_setup_with Site.importer "__main__" Site.empty setup_kwargs
  /\ kwarg "url" setup_kwargs
     = Some (Str "http://github.com/scanner-research/rekall")
  /\ kwarg "author" setup_kwargs = Some (Str "Dan Fu")
  /\ kwarg "author_email" setup_kwargs = Some (Str "danfu@stanford.edu")
  /\ kwarg "license" setup_kwargs = Some (Str "Apache 2.0").
Proof.
  split; [left; reflexivity |].
  apply (contact_metadata Site.importer "__main__" Site.empty).
  left; reflexivity.
Defined.

(** X8.  The module body run again in a namespace that already binds
    [setup], as a reload does: the import rebinds [setup], so the call
    under the guard reaches the function just imported and never the
    earlier binding, and no [TypeError] arises even when that binding was
    not callable.  The operations are added after those already traced. *)
Theorem reevaluation_uses_fresh_import
    {World ext_exn : Type} (importer : machinery World ext_exn)
    (s : state World ext_exn) (o : obj World ext_exn)
    (f : callable World ext_exn) (w1 : World) :
  lookup "__name__" (globals s) = Some o ->
  importer "setuptools" "setup" (world s) = (inr (Fn f), w1) ->
  lookup "setup" (globals (snd (setup_py importer s))) = Some (Fn f)
  /\ trace (snd (setup_py importer s))
     = trace s ++ (if eq_str o "__main__" then [import_ev; call_ev]
                   else [import_ev])
  /\ fst (setup_py importer s)
     = (if eq_str o "__main__" then propagate (fst (f setup_kwargs w1))
        else inr tt)
  /\ world (snd (setup_py importer s))
     = (if eq_str o "__main__" then snd (f setup_kwargs w1) else w1).
Proof.
  intros Hname Himp. rewrite (setup_py_eq importer s o Hname), Himp. cbn.
  destruct (eq_str o "__main__"); cbn.
  - destruct (f setup_kwargs w1) as [[x | u] w2]; repeat split.
  - repeat split.
Qed.

Lemma reevaluation_uses_fresh_import_witness :
  lookup "__name__"
    (globals (mkState Site.empty
                [("setup", @Val Site.site string (Boolean false));
                 ("__name__", Val (Str "__main__"))]
                [EvImport "os" "path"]))
  = Some (Val (Str "__main__"))
  /\ Site.importer "setuptools" "setup" Site.empty
     = (inr (Fn Site.setup), Site.mkSite ["setuptools"] [])
  /\ fst (setup_py Site.importer
            (mkState Site.empty
               [("setup", Val (Boolean false));
                ("__name__", Val (Str "__main__"))]
               [EvImport "os" "path"]))
     = inr tt.
Proof.
  split; [reflexivity |].
  split; [reflexivity |].
  destruct (reevaluation_uses_fresh_import Site.importer
              (mkState Site.empty
                 [("setup", Val (Boolean false));
                  ("__name__", Val (Str "__main__"))]
                 [EvImport "os" "path"])
              (Val (Str "__main__")) Site.setup
              (Site.mkSite ["setuptools"] []))
    as (_ & _ & Hres & _); [reflexivity | reflexivity |].
  exact Hres.
Defined.

(** X9.  Every evaluation imports exactly once, as its first operation, and
    what it imports is [setup] from [setuptools]: the manifest never
    imports another module, in particular not the package it installs. *)
Theorem imports_only_setuptools
    {World ext_exn : Type} (importer : machinery World ext_exn)
    (name : string) (w : World) :
  hd_error (trace (snd (run_module importer name w))) = Some import_ev
  /\ filter (fun ev => negb (is_call ev))
            (trace (snd (run_module importer name w))) = [import_ev]
  /\ (forall m n,
        In (EvImport m n) (trace (snd (run_module importer name w))) ->
        m = "setuptools" /\ n = "setup").
Proof.
  destruct (trace_run_module importer name w) as [Ht | [Ht _]];
    cbv zeta in Ht; rewrite Ht; cbn.
  - split; [reflexivity | split; [reflexivity |]].
    intros m n [[= <- <-] | []]. now split.
  - split; [reflexivity | split; [reflexivity |]].
    intros m n [[= <- <-] | [Hcall | []]]; [now split | discriminate Hcall].
Qed.
